(** * script/imageResize.py: a shallow embedding and its properties

    The script is three calls into the Pillow imaging library:

      def ResizeImage(filein, fileout, width, height):
          img = Image.open(filein)
          out = img.resize((width, height), Image.ANTIALIAS)
          out.save(fileout)

    followed by a direct-execution guard that calls it on literal arguments.

    The embedding threads an explicit world (files, directories, open file
    handles, a log of calls) through a state-and-exception monad.  The
    codecs and the resampling kernels of the library are parameters
    (class [Imaging]); what the library does with files and handles around
    them ([Image_open], [Image_resize], [Image_save]) is written out. *)

From Stdlib Require Import ZArith.
From Stdlib.Strings Require Import Ascii String Byte.
From stdpp Require Import base option list gmap strings.

Open Scope Z_scope.

(** ** The imaging library: what the script does not determine *)

(** PIL.Image resampling filters with their integer codes; [ANTIALIAS] is
    the library's older name of [LANCZOS]. *)
Inductive Filter := NEAREST | LANCZOS | BILINEAR | BICUBIC | BOX | HAMMING.

Definition ANTIALIAS : Filter := LANCZOS.


#[global] Instance Filter_eq_dec : EqDecision Filter.
Proof. solve_decision. Defined.

(** What identification of a file yields: whether the plugin closes the
    file once the pixel data is loaded (single-frame formats do,
    multi-frame containers keep it open for seeking). *)
Record Header := mkHeader { close_fp_after_loading : bool }.

Inductive Loaded (B : Type) :=
| Pixels (b : B)
| Truncated
| DecoderError.
Arguments Pixels {B} b.
Arguments Truncated {B}.
Arguments DecoderError {B}.

(** What saving in a format comes to: the bytes of the file, an encoder
    that fails after having written some bytes, or a format that is
    registered for reading only and has no save handler. *)
Inductive Encoding :=
| Encoded (bs : list byte)
| EncoderError (written : list byte)
| NoWriter.

(** The decoders and encoders of the registered formats, the extension
    registry, the resampling kernels and the limits of memory, and the
    runtime's [str.lower] (path strings are byte strings here, so it is
    taken on the encoded text).
    [resample f b size] is the bitmap [resize] returns when asked for
    filter [f]; images of mode 1 or P ([palette]) are resampled with the
    nearest-neighbour kernel whatever the filter asked for. *)
Class Imaging := {
  Bitmap : Type;
  Format : Type;
  bm_size : Bitmap -> Z * Z;
  palette : Bitmap -> bool;
  identify : list byte -> option Header;
  load_pixels : list byte -> Loaded Bitmap;
  allocatable : Bitmap -> Z * Z -> bool;
  resample : Filter -> Bitmap -> Z * Z -> Bitmap;
  str_lower : string -> string;
  EXTENSION : string -> option Format;
  encode : Format -> Bitmap -> Encoding;
  resample_size :
    forall f b w h, 0 < w -> 0 < h -> bm_size (resample f b (w, h)) = (w, h);
  resample_palette :
    forall f b size, palette b = true -> resample f b size = resample NEAREST b size;
  writer_of_format :
    forall fmt b b', encode fmt b = NoWriter -> encode fmt b' = NoWriter
}.

(** ** os.path helpers used by [open] and by [Image.save] *)

Module posixpath.

Definition sep : ascii := "/"%char.
Definition extsep : ascii := "."%char.

(** [rsplit c p] cuts [p] at the last occurrence of [c] (Python's
    [i = p.rfind(c)]) and returns [(p[:i], p[i:])]. *)
Fixpoint rsplit (c : ascii) (p : list ascii) : option (list ascii * list ascii) :=
  match p with
  | [] => None
  | x :: p' =>
      match rsplit c p' with
      | Some (pre, suf) => Some (x :: pre, suf)
      | None => if Ascii.eqb x c then Some ([], x :: p') else None
      end
  end.

(** [p.rstrip(c)] *)
Fixpoint rstrip (c : ascii) (p : list ascii) : list ascii :=
  match p with
  | [] => []
  | x :: p' =>
      match rstrip c p' with
      | [] => if Ascii.eqb x c then [] else [x]
      | r => x :: r
      end
  end.

(** posixpath.dirname:
      i = p.rfind('/') + 1; head = p[:i]
      if head and head != '/'*len(head): head = head.rstrip('/') *)
Definition dirname (p : string) : string :=
  match rsplit sep (list_ascii_of_string p) with
  | None => EmptyString
  | Some (pre, _) =>
      let head := pre ++ [sep] in
      string_of_list_ascii
        (if forallb (Ascii.eqb sep) head then head else rstrip sep head)
  end.

Definition basename (p : list ascii) : list ascii :=
  match rsplit sep p with
  | None => p
  | Some (_, suf) => tail suf
  end.

(** The second component of posixpath.splitext: the text from the last
    dot of the base name on, unless only dots precede that dot. *)
Definition splitext_ext (p : string) : list ascii :=
  match rsplit extsep (basename (list_ascii_of_string p)) with
  | None => []
  | Some (pre, suf) =>
      if existsb (fun x => negb (Ascii.eqb x extsep)) pre then suf else []
  end.

(** [os.path.splitext(filename)[1].lower()], as [Image.save] computes it *)
Definition ext_lower {PIL : Imaging} (p : string) : string :=
  str_lower (string_of_list_ascii (splitext_ext p)).

(** What [str.lower] does to the letters A to Z. *)
Definition lower_ascii (c : ascii) : ascii :=
  let n := nat_of_ascii c in
  if (Nat.leb 65 n && Nat.leb n 90)%bool then ascii_of_nat (n + 32) else c.

End posixpath.

(** ** The world the script runs in *)

(** Modes in which the library opens files: ["rb"] in [Image.open],
    ["w+b"] in [Image.save]. *)
Inductive Mode := RB | WB.

#[global] Instance Mode_eq_dec : EqDecision Mode.
Proof. solve_decision. Defined.

Record File := mkFile {
  f_data : list byte;
  f_readable : bool;
  f_writable : bool
}.

(** Ghost log: entries of [ResizeImage] and the opening and closing of
    file handles. *)
Inductive Event :=
| EvCall (filein fileout : string) (width height : Z)
| EvOpen (p : string) (m : Mode)
| EvClose (p : string) (m : Mode).

(** [realpath] resolves a path string to the canonical name of the file
    it denotes: two strings that name one file (a relative and an absolute
    spelling, [.] and [..] segments, repeated separators, links) have the
    same canonical name. [files] and [dirs] are keyed by canonical names;
    [dirs] maps each existing directory to whether entries can be created
    in it. Handles carry the path string they were opened with and are the
    ones open at this point of the execution, before any finaliser of the
    runtime has run. *)
Record World := mkWorld {
  realpath : string -> string;
  files : gmap string File;
  dirs : gmap string bool;
  fds : list (string * Mode);
  log : list Event
}.

Definition set_files (fs : gmap string File) (w : World) : World :=
  mkWorld (realpath w) fs (dirs w) (fds w) (log w).

(** ** Exceptions *)

Inductive PyExc :=
| FileNotFoundError
| PermissionError
| UnidentifiedImageError
| OSError
| ValueError
| OverflowError
| MemoryError
| KeyError.

(** The library call the traceback of an exception ends in. [in_load] is
    the loading of the pixel data that [resize] triggers first. *)
Inductive Site := in_open | in_load | in_resize | in_save.

Record exn := mkExn { exc : PyExc; site : Site }.

(** The three error kinds of the specification, by cause. *)
Inductive ErrorKind := DecodeError | EncodeError | InvalidDimensions.

Definition kind (e : exn) : ErrorKind :=
  match site e with
  | in_open | in_load => DecodeError
  | in_resize => InvalidDimensions
  | in_save => EncodeError
  end.

#[global] Instance PyExc_eq_dec : EqDecision PyExc.
Proof. solve_decision. Defined.
#[global] Instance Site_eq_dec : EqDecision Site.
Proof. solve_decision. Defined.
#[global] Instance ErrorKind_eq_dec : EqDecision ErrorKind.
Proof. solve_decision. Defined.

(** ** State and exception monad *)

Inductive Res (A : Type) :=
| Ok (a : A)
| Raise (e : exn).
Arguments Ok {A} a.
Arguments Raise {A} e.

Definition M (A : Type) : Type := World -> Res A * World.

Definition ret {A} (a : A) : M A := fun w => (Ok a, w).

Definition bind {A B} (m : M A) (k : A -> M B) : M B :=
  fun w =>
    match m w with
    | (Ok a, w') => k a w'
    | (Raise e, w') => (Raise e, w')
    end.

Definition raise {A} (x : PyExc) (s : Site) : M A :=
  fun w => (Raise (mkExn x s), w).

Declare Scope py_scope.
Delimit Scope py_scope with py.
Notation "x <- m ;; k" := (bind m (fun x => k))
  (at level 100, m at next level, right associativity) : py_scope.
Notation "m ;;; k" := (bind m (fun _ => k))
  (at level 100, right associativity) : py_scope.
Open Scope py_scope.

Definition emit (e : Event) : M unit :=
  fun w => (Ok tt, mkWorld (realpath w) (files w) (dirs w) (fds w) (log w ++ [e])).

(** ** Operating-system primitives *)

(** Remove one occurrence of a handle. *)
Fixpoint remove_fd (h : string * Mode) (l : list (string * Mode)) : list (string * Mode) :=
  match l with
  | [] => []
  | x :: l' => if decide (x = h) then l' else x :: remove_fd h l'
  end.

(** [builtins.open(p, "rb")] *)
Definition os_open_rb (s : Site) (p : string) : M (list byte) :=
  fun w =>
    match files w !! realpath w p with
    | None => (Raise (mkExn FileNotFoundError s), w)
    | Some f =>
        if f_readable f
        then (Ok (f_data f),
              mkWorld (realpath w) (files w) (dirs w)
                      ((p, RB) :: fds w) (log w ++ [EvOpen p RB]))
        else (Raise (mkExn PermissionError s), w)
    end.

(** [builtins.open(p, "w+b")]: an existing file is truncated, a missing
    one is created in its directory. Returns whether the file was created. *)
Definition os_open_wb (s : Site) (p : string) : M bool :=
  fun w =>
    match files w !! realpath w p with
    | Some f =>
        if f_writable f
        then (Ok false,
              mkWorld (realpath w)
                      (<[realpath w p := mkFile [] (f_readable f) true]> (files w))
                      (dirs w) ((p, WB) :: fds w) (log w ++ [EvOpen p WB]))
        else (Raise (mkExn PermissionError s), w)
    | None =>
        match dirs w !! posixpath.dirname (realpath w p) with
        | None => (Raise (mkExn FileNotFoundError s), w)
        | Some false => (Raise (mkExn PermissionError s), w)
        | Some true =>
            (Ok true,
             mkWorld (realpath w)
                     (<[realpath w p := mkFile [] true true]> (files w))
                     (dirs w) ((p, WB) :: fds w) (log w ++ [EvOpen p WB]))
        end
    end.

(** [fp.write(bs)] on a handle opened by [os_open_wb] *)
Definition os_write (p : string) (bs : list byte) : M unit :=
  fun w =>
    (Ok tt,
     set_files (alter (fun f => mkFile (f_data f ++ bs) (f_readable f) (f_writable f))
                      (realpath w p) (files w)) w).

(** [fp.close()] *)
Definition os_close (p : string) (m : Mode) : M unit :=
  fun w =>
    (Ok tt, mkWorld (realpath w) (files w) (dirs w)
                    (remove_fd (p, m) (fds w)) (log w ++ [EvClose p m])).

(** [os.remove(p)] *)
Definition os_remove (p : string) : M unit :=
  fun w => (Ok tt, set_files (delete (realpath w p) (files w)) w).

(** ** The library calls of the script *)

(** The sizes the core of [resize] can take: each component is parsed
    into a C int. *)
Definition fits_c_int (z : Z) : bool :=
  ((-2147483648 <=? z) && (z <=? 2147483647))%bool.

Section Script.

Context {PIL : Imaging}.

(** The object [Image.open] returns: the image is identified but its
    pixel data is not read yet; [im_raw] is the content reachable through
    its open handle. *)
Record ImageFile := mkImageFile {
  im_filename : string;
  im_raw : list byte;
  im_header : Header
}.

(** [Image.open(fp)]: open the file, identify it; when no plugin
    recognises it, close the file and raise. The file stays open
    otherwise. *)
Definition Image_open (fp : string) : M ImageFile :=
  raw <- os_open_rb in_open fp ;;
  match identify raw with
  | Some hd => ret (mkImageFile fp raw hd)
  | None => os_close fp RB ;;; raise UnidentifiedImageError in_open
  end.

(** [ImageFile.load()]: read the pixel data; a short read raises at once,
    otherwise the file is closed if the plugin says so and a decoder
    error is raised after that. *)
Definition Image_load (img : ImageFile) : M Bitmap :=
  match load_pixels (im_raw img) with
  | Truncated => raise OSError in_load
  | r =>
      (if close_fp_after_loading (im_header img)
       then os_close (im_filename img) RB else ret tt) ;;;
      match r with
      | Pixels b => ret b
      | _ => raise OSError in_load
      end
  end.

(** [img.resize(size, resample)]: load, then resample into a new image.
    The core parses the two components of the size into C ints
    (OverflowError), rejects a width or height below 1 (ValueError) and
    allocates the new image (MemoryError). *)
Definition Image_resize (img : ImageFile) (size : Z * Z) (filter : Filter) : M Bitmap :=
  b <- Image_load img ;;
  if negb (fits_c_int (fst size) && fits_c_int (snd size))
  then raise OverflowError in_resize
  else if ((fst size <? 1) || (snd size <? 1))%bool
  then raise ValueError in_resize
  else if allocatable b size
  then ret (resample filter b size)
  else raise MemoryError in_resize.

(** [out.save(fp)]: the format comes from the extension (ValueError when
    it is not registered) and must have a save handler (KeyError); only
    then is the file opened for writing, the encoder run and the file
    closed. When the encoder fails, a file that [save] created is removed
    again; an existing one stays as the encoder left it. *)
Definition Image_save (out : Bitmap) (fp : string) : M unit :=
  match EXTENSION (posixpath.ext_lower fp) with
  | None => raise ValueError in_save
  | Some fmt =>
      match encode fmt out with
      | NoWriter => raise KeyError in_save
      | Encoded bs =>
          created <- os_open_wb in_save fp ;;
          os_write fp bs ;;;
          os_close fp WB
      | EncoderError written =>
          created <- os_open_wb in_save fp ;;
          os_write fp written ;;;
          os_close fp WB ;;;
          (if created : bool then os_remove fp else ret tt) ;;;
          raise OSError in_save
      end
  end.

(** ** The script *)

(** The first line is the entry in the ghost log; the three others are the
    three statements of the function. *)
Definition ResizeImage (filein fileout : string) (width height : Z) : M unit :=
  emit (EvCall filein fileout width height) ;;;
  img <- Image_open filein ;;
  out <- Image_resize img (width, height) ANTIALIAS ;;
  Image_save out fileout.

(** The module body after the definitions: the guard on [__name__]. *)
Definition script (name : string) : M unit :=
  if String.eqb name "__main__" then
    let filein := "../assets//resized//prof_pic_yh.jpeg"%string in
    let fileout := "../assets//resized//prof_pic-480x659.jpeg"%string in
    let width := 480 in
    let height := 659 in
    ResizeImage filein fileout width height
  else ret tt.

(** ** Predicates the statements below are written with *)

(** What identification followed by loading yields on a file content. *)
Definition decode_bytes (bs : list byte) : option Bitmap :=
  match identify bs, load_pixels bs with
  | Some _, Pixels b => Some b
  | _, _ => None
  end.

(** The bitmap of the readable, decodable image at [p], if there is one. *)
Definition decodable (w : World) (p : string) : option Bitmap :=
  match files w !! realpath w p with
  | Some f => if f_readable f then decode_bytes (f_data f) else None
  | None => None
  end.

(** [p] can be opened for writing. *)
Definition writable_location (w : World) (p : string) : bool :=
  match files w !! realpath w p with
  | Some f => f_writable f
  | None =>
      match dirs w !! posixpath.dirname (realpath w p) with
      | Some true => true
      | _ => false
      end
  end.

(** [resize] takes the size for the bitmap: both components fit a C int
    and the new image can be allocated. *)
Definition resizable (b : Bitmap) (size : Z * Z) : bool :=
  (fits_c_int (fst size) && fits_c_int (snd size) && allocatable b size)%bool.

(** Files of format [fmt] decode to the pixel dimensions they were
    encoded from. *)
Definition preserves_size (fmt : Format) : Prop :=
  forall b bs,
    encode fmt b = Encoded bs ->
    exists b', decode_bytes bs = Some b' /\ bm_size b' = bm_size b.

(** The library leaves the handle on the image at [p] open: the pixel
    data is cut short, or the plugin keeps its file after loading. *)
Definition keeps_input_open (w : World) (p : string) : bool :=
  match files w !! realpath w p with
  | Some f =>
      f_readable f &&
      match identify (f_data f) with
      | Some hd =>
          match load_pixels (f_data f) with
          | Truncated => true
          | _ => negb (close_fp_after_loading hd)
          end
      | None => false
      end
  | None => false
  end.

(** The handles a stretch of the log opens, in order. *)
Fixpoint opened (evs : list Event) : list (string * Mode) :=
  match evs with
  | [] => []
  | EvOpen p m :: evs' => (p, m) :: opened evs'
  | _ :: evs' => opened evs'
  end.

(** The entries of [ResizeImage] in a stretch of the log. *)
Fixpoint calls (evs : list Event) : list (string * string * Z * Z) :=
  match evs with
  | [] => []
  | EvCall fi fo wd ht :: evs' => (fi, fo, wd, ht) :: calls evs'
  | _ :: evs' => calls evs'
  end.

End Script.

(** ** A small instance of the library, to run the script on *)

Module Toy.

(** Width, height, whether there is an alpha channel, whether the image is
    a palette image, and whether the pixels come from a smoothing kernel. *)
Record bitmap := mkBitmapP {
  t_w : Z; t_h : Z; t_alpha : bool; t_palette : bool; t_smooth : bool
}.

Definition mkBitmap (w h : Z) (alpha : bool) : bitmap :=
  mkBitmapP w h alpha false false.

(** Two formats that are read and written, an icon format that stores at
    most 8 x 8 pixels, and a format that is only read. *)
Inductive format := TJPEG | TPNG | TICO | TPSD.

Definition magic (fmt : format) : byte :=
  match fmt with
  | TJPEG => "J"%byte | TPNG => "P"%byte | TICO => "I"%byte | TPSD => "8"%byte
  end.

Definition t_identify (bs : list byte) : option Header :=
  match bs with
  | "J"%byte :: _ | "P"%byte :: _ | "I"%byte :: _ | "8"%byte :: _ =>
      Some (mkHeader true)
  | "G"%byte :: _ => Some (mkHeader false)
  | _ => None
  end.

Definition t_load (bs : list byte) : Loaded bitmap :=
  match bs with
  | [_; a; bw; bh] =>
      Pixels (mkBitmapP (Z.of_N (Byte.to_N bw)) (Z.of_N (Byte.to_N bh))
                        (Byte.eqb a "1"%byte) (Byte.eqb a "2"%byte) false)
  | _ => Truncated
  end.

Definition mode_byte (b : bitmap) : byte :=
  if t_palette b then "2"%byte else if t_alpha b then "1"%byte else "0"%byte.

(** The JPEG-like format takes neither an alpha channel nor a palette, and
    a width or height that does not fit one byte makes an encoder fail
    after the first byte is written. *)
Definition t_encode (fmt : format) (b : bitmap) : Encoding :=
  match fmt with
  | TPSD => NoWriter
  | _ =>
      if (match fmt with TJPEG => t_alpha b || t_palette b | _ => false end)%bool
      then EncoderError []
      else if ((t_w b <? 0) || (t_h b <? 0))%bool then EncoderError [magic fmt]
      else
        let clamp z := match fmt with TICO => Z.min z 8 | _ => z end in
        match Byte.of_N (Z.to_N (clamp (t_w b))), Byte.of_N (Z.to_N (clamp (t_h b))) with
        | Some bw, Some bh => Encoded [magic fmt; mode_byte b; bw; bh]
        | _, _ => EncoderError [magic fmt]
        end
  end.

Definition t_extension (ext : string) : option format :=
  if String.eqb ext ".jpeg" then Some TJPEG
  else if String.eqb ext ".jpg" then Some TJPEG
  else if String.eqb ext ".png" then Some TPNG
  else if String.eqb ext ".ico" then Some TICO
  else if String.eqb ext ".psd" then Some TPSD
  else None.

Definition t_resample (f : Filter) (b : bitmap) (size : Z * Z) : bitmap :=
  mkBitmapP (fst size) (snd size) (t_alpha b) (t_palette b)
            (negb (t_palette b) && negb (bool_decide (f = NEAREST))).

Definition t_lower (s : string) : string :=
  string_of_list_ascii (map posixpath.lower_ascii (list_ascii_of_string s)).

#[local] Instance pil : Imaging := {|
  Bitmap := bitmap;
  Format := format;
  bm_size b := (t_w b, t_h b);
  palette := t_palette;
  identify := t_identify;
  load_pixels := t_load;
  allocatable _ size := fst size * snd size <? 2147483648;
  resample := t_resample;
  str_lower := t_lower;
  EXTENSION := t_extension;
  encode := t_encode;
  resample_size _ _ _ _ _ _ := eq_refl;
  resample_palette f b size H :=
    ltac:(unfold t_resample; rewrite H; reflexivity);
  writer_of_format fmt b b' H :=
    ltac:(destruct fmt; try reflexivity; exfalso; unfold t_encode in H;
          repeat (case_match; try discriminate))
|}.

Definition file (bs : list byte) : File := mkFile bs true true.

(** Path resolution: leading [./] segments are dropped. *)
Fixpoint strip_dot (p : list ascii) : list ascii :=
  match p with
  | "."%char :: "/"%char :: p' => strip_dot p'
  | _ => p
  end.

Definition t_realpath (p : string) : string :=
  string_of_list_ascii (strip_dot (list_ascii_of_string p)).

(** An RGB picture of 12 x 16 pixels, one with an alpha channel, one with
    a palette, a file cut short after its first byte, an older output, a
    multi-frame container and a text file; the current directory and
    [out] exist. *)
Definition world0 : World :=
  mkWorld t_realpath
    (<["pic.png"%string := file ["P"%byte; "0"%byte; x0c; x10]]>
     (<["alpha.png"%string := file ["P"%byte; "1"%byte; x0c; x10]]>
     (<["palette.png"%string := file ["P"%byte; "2"%byte; x0c; x10]]>
     (<["cut.png"%string := file ["P"%byte]]>
     (<["old.jpeg"%string := file ["J"%byte; "0"%byte; x02; x02]]>
     (<["anim.gif"%string := file ["G"%byte; "0"%byte; x02; x02]]>
     (<["notes.txt"%string := file ["h"; "i"]%byte]> ∅)))))))
    (<[""%string := true]> (<["out"%string := true]> ∅))
    [] [].

End Toy.

(** ** Properties *)

Ltac unfold_script :=
  unfold ResizeImage, Image_open, Image_resize, Image_load, Image_save,
    os_open_rb, os_open_wb, os_write, os_close, os_remove,
    emit, bind, ret, raise, set_files in *.

Ltac split_cases :=
  repeat (case_match; simpl in *; simplify_eq; try done).

(** Evaluate along the path the hypotheses determine. *)
Ltac rew_hyps :=
  repeat match goal with
  | H : ?l = _ |- context [?l] => first [ is_var l; fail 1 | rewrite H ]
  end.

Ltac run := repeat (progress (simpl; rew_hyps)).

(** Case analysis on an innermost undetermined test of the goal. *)
Ltac case_inner :=
  match goal with
  | |- context [match ?x with _ => _ end] =>
      lazymatch x with
      | context [match _ with _ => _ end] => fail
      | _ => destruct x eqn:?
      end
  end.

Ltac branch := repeat (case_inner; run).

Example dirname_main :
  posixpath.dirname "../assets//resized//prof_pic-480x659.jpeg" = "../assets//resized"%string.
Proof. reflexivity. Qed.

Example ext_lower_main :
  posixpath.ext_lower (PIL := Toy.pil) "../assets//resized//prof_pic-480x659.jpeg"
    = ".jpeg"%string.
Proof. reflexivity. Qed.

Example ext_lower_dotfile : posixpath.ext_lower (PIL := Toy.pil) "a.b/.PNG" = ""%string.
Proof. reflexivity. Qed.

Example ext_lower_upper : posixpath.ext_lower (PIL := Toy.pil) "out/X.Y.PNG" = ".png"%string.
Proof. reflexivity. Qed.

(** The formats of the small instance that store the pixel dimensions. *)
Lemma toy_preserves_size (fmt : Toy.format) :
  fmt = Toy.TPNG \/ fmt = Toy.TJPEG -> preserves_size (PIL := Toy.pil) fmt.
Proof.
  intros Hfmt [w h a p s] bs. unfold encode, decode_bytes; simpl.
  unfold Toy.t_encode, Toy.mode_byte; simpl.
  intros Henc.
  assert (exists m bw bh,
    (m = "J"%byte \/ m = "P"%byte) /\
    bs = [m; if p then "2"%byte else if a then "1"%byte else "0"%byte; bw; bh] /\
    0 <= w /\ 0 <= h /\
    Byte.of_N (Z.to_N w) = Some bw /\ Byte.of_N (Z.to_N h) = Some bh)
    as (m & bw & bh & Hm & -> & Hw & Hh & Ebw & Ebh).
  { destruct Hfmt as [-> | ->]; simpl in Henc;
      repeat (case_match; try discriminate);
      match goal with H : (_ || _)%bool = false |- _ =>
        apply orb_false_iff in H as [?%Z.ltb_ge ?%Z.ltb_ge] end;
      simplify_eq; eexists _, _, _; repeat split; eauto. }
  apply Byte.to_of_N in Ebw, Ebh.
  eexists. split.
  - destruct Hm as [-> | ->]; simpl; reflexivity.
  - simpl. by rewrite Ebw, Ebh, !Z2N.id.
Qed.

Section Properties.

Context {PIL : Imaging}.

Implicit Types (w : World) (filein fileout : string) (width height : Z).

Lemma decodable_Some_inv w p b :
  decodable w p = Some b ->
  exists f hd,
    files w !! realpath w p = Some f /\ f_readable f = true /\
    identify (f_data f) = Some hd /\ load_pixels (f_data f) = Pixels b.
Proof.
  unfold decodable, decode_bytes. intros H.
  destruct (files w !! realpath w p) as [f|]; [|done].
  destruct (f_readable f) eqn:Hr; [|done].
  destruct (identify (f_data f)) as [hd|] eqn:Hi; [|done].
  destruct (load_pixels (f_data f)) as [b0| |] eqn:Hl; simplify_eq.
  by exists f, hd.
Qed.

Lemma remove_fd_head h l : remove_fd h (h :: l) = l.
Proof. simpl. by rewrite decide_True. Qed.

Lemma size_check_pass width height :
  0 < width -> 0 < height -> ((width <? 1) || (height <? 1))%bool = false.
Proof. intros. apply orb_false_iff. split; apply Z.ltb_ge; lia. Qed.

Lemma size_check_fail width height :
  width <= 0 \/ height <= 0 -> ((width <? 1) || (height <? 1))%bool = true.
Proof. intros [?|?]; apply orb_true_iff; [left|right]; apply Z.ltb_lt; lia. Qed.

Lemma resizable_inv b width height :
  resizable b (width, height) = true ->
  fits_c_int width = true /\ fits_c_int height = true /\
  allocatable b (width, height) = true.
Proof.
  unfold resizable. simpl. intros H.
  apply andb_true_iff in H as [H ?]. apply andb_true_iff in H as [? ?]. done.
Qed.

(** What a normal return tells about the call. *)
Lemma ResizeImage_Ok_inv w filein fileout width height :
  fst (ResizeImage filein fileout width height w) = Ok tt ->
  exists f hd b fmt bs f',
    files w !! realpath w filein = Some f /\ f_readable f = true /\
    identify (f_data f) = Some hd /\ load_pixels (f_data f) = Pixels b /\
    0 < width /\ 0 < height /\
    resizable b (width, height) = true /\
    writable_location w fileout = true /\
    EXTENSION (posixpath.ext_lower fileout) = Some fmt /\
    encode fmt (resample ANTIALIAS b (width, height)) = Encoded bs /\
    files (snd (ResizeImage filein fileout width height w)) !! realpath w fileout
      = Some f' /\
    f_data f' = bs.
Proof.
  unfold writable_location, resizable. unfold_script. run.
  branch; try done; intros _;
    match goal with
    | H : (_ || _)%bool = false |- _ =>
        apply orb_false_iff in H; destruct H as [?%Z.ltb_ge ?%Z.ltb_ge]
    end;
    match goal with
    | H : negb _ = false |- _ =>
        apply negb_false_iff in H; rewrite H
    end;
    eexists _, _, _, _, _, _; rewrite lookup_alter_eq, lookup_insert_eq; simpl;
    repeat split; try done; lia.
Qed.

(** The stretch of the log one call appends: its own entry, then at
    most the opening of the input for reading and of the output for
    writing, in this order. *)
Lemma ResizeImage_log w filein fileout width height :
  exists evs,
    log (snd (ResizeImage filein fileout width height w))
      = log w ++ EvCall filein fileout width height :: evs /\
    calls evs = [] /\
    (opened evs = [] \/ opened evs = [(filein, RB)] \/
     opened evs = [(filein, RB); (fileout, WB)]).
Proof.
  unfold_script. run.
  branch; rewrite <- ?app_assoc; simpl;
    (eexists; split; [reflexivity|]); simpl; auto.
Qed.






(** C3. When no readable, decodable image exists at the input path, the
    call raises an exception whose cause is the decoding of the input,
    and the files are left as they were: no output file is written. *)
Theorem ResizeImage_undecodable_input w filein fileout width height :
  decodable w filein = None ->
  exists e,
    fst (ResizeImage filein fileout width height w) = Raise e /\
    kind e = DecodeError /\
    files (snd (ResizeImage filein fileout width height w)) = files w.
Proof.
  unfold decodable, decode_bytes. intros Hd.
  unfold_script. simpl. split_cases; eexists; eauto.
Qed.


(** C2. For every call with width <= 0 or height <= 0 the call raises
    and leaves the files as they were; the image is opened and loaded
    before the size is examined, so the exception is the one [resize]
    raises for the size when the input decodes (ValueError, or
    OverflowError when a component does not fit a C int), and the
    decoding error otherwise. *)
Theorem ResizeImage_nonpositive_dimensions w filein fileout width height :
  width <= 0 \/ height <= 0 ->
  exists e,
    fst (ResizeImage filein fileout width height w) = Raise e /\
    files (snd (ResizeImage filein fileout width height w)) = files w /\
    match decodable w filein with
    | Some _ =>
        kind e = InvalidDimensions /\
        exc e = if (fits_c_int width && fits_c_int height)%bool
                then ValueError else OverflowError
    | None => kind e = DecodeError
    end.
Proof.
  intros Hchk%size_check_fail.
  unfold decodable, decode_bytes. unfold_script. run.
  branch; try done; eexists; done.
Qed.




(** C8. Run as the main module, the script is one call of ResizeImage on
    the literal paths with width 480 and height 659 and nothing else:
    its result and final world are those of that call, and the log
    gains exactly one entry of ResizeImage, with these arguments. Under
    any other module name the guard is false and nothing happens. *)
Theorem script_main_calls_ResizeImage_once w :
  script "__main__" w
    = ResizeImage "../assets//resized//prof_pic_yh.jpeg"
                  "../assets//resized//prof_pic-480x659.jpeg" 480 659 w /\
  (exists evs,
     log (snd (script "__main__" w)) = log w ++ evs /\
     calls evs = [("../assets//resized//prof_pic_yh.jpeg"%string,
                   "../assets//resized//prof_pic-480x659.jpeg"%string, 480, 659)]) /\
  (forall name, name <> "__main__"%string -> script name w = (Ok tt, w)).
Proof.
  split; [reflexivity|split].
  - change (script "__main__" w)
      with (ResizeImage "../assets//resized//prof_pic_yh.jpeg"
                        "../assets//resized//prof_pic-480x659.jpeg" 480 659 w).
    destruct (ResizeImage_log w "../assets//resized//prof_pic_yh.jpeg"
                "../assets//resized//prof_pic-480x659.jpeg" 480 659)
      as (evs & Hlog & Hcalls & _).
    eexists. split; [exact Hlog|]. simpl. by rewrite Hcalls.
  - intros name Hname. unfold script.
    destruct (String.eqb_spec name "__main__"); done.
Qed.

(** C9. A call opens at most two handles, the input for reading and then
    the output for writing. The output handle is closed on every path.
    The script itself closes nothing: the input handle is closed by the
    library when identification fails or once the pixel data is loaded
    from a format that closes its file after loading; when the pixel data
    is cut short or the format keeps its file, that handle is still open
    when the call returns or raises. *)
Theorem ResizeImage_handles w filein fileout width height :
  fds (snd (ResizeImage filein fileout width height w))
    = (if keeps_input_open w filein then [(filein, RB)] else []) ++ fds w /\
  exists evs,
    log (snd (ResizeImage filein fileout width height w))
      = log w ++ EvCall filein fileout width height :: evs /\
    (opened evs = [] \/ opened evs = [(filein, RB)] \/
     opened evs = [(filein, RB); (fileout, WB)]).
Proof.
  split.
  - unfold keeps_input_open. unfold_script. run.
    branch; done.
  - destruct (ResizeImage_log w filein fileout width height)
      as (evs & Hlog & _ & Hop).
    by exists evs.
Qed.

(** C10. Nothing relates the two paths: a call whose output path is its
    input path can return normally, and then the file at that path holds
    the encoding of the resized bitmap in place of the original; when
    the format stores pixel dimensions and the original was not already
    of the requested size, its content differs from the original. *)
Theorem ResizeImage_in_place_overwrite w filein width height f :
  files w !! realpath w filein = Some f ->
  fst (ResizeImage filein filein width height w) = Ok tt ->
  exists b fmt f',
    decode_bytes (f_data f) = Some b /\
    EXTENSION (posixpath.ext_lower filein) = Some fmt /\
    files (snd (ResizeImage filein filein width height w)) !! realpath w filein
      = Some f' /\
    encode fmt (resample ANTIALIAS b (width, height)) = Encoded (f_data f') /\
    (preserves_size fmt -> bm_size b <> (width, height) -> f_data f' <> f_data f).
Proof.
  intros Hf
    (f0 & hd & b & fmt & bs & f' & Hf0 & _ & Hid & Hl & Hw & Hh & _ & _ & He & Hc & Hf' & Hd)%ResizeImage_Ok_inv.
  simplify_eq.
  assert (decode_bytes (f_data f) = Some b) as Hdec
    by (unfold decode_bytes; by rewrite Hid, Hl).
  exists b, fmt, f'. repeat split; try done.
  intros P Hsz Heq.
  destruct (P _ _ Hc) as (b' & Hb' & Hs').
  rewrite Heq, Hdec in Hb'. simplify_eq.
  by rewrite resample_size in Hs'.
Qed.

End Properties.

(** ** The script on concrete worlds *)



(** C2 as stated fails: with width 0 and no file at the input path the
    exception is the one of the opening of the input, not a size error. *)
Lemma ResizeImage_zero_width_missing_input :
  0 <= 0 /\
  fst (ResizeImage (PIL := Toy.pil) "nope.png" "out/small.png" 0 4 Toy.world0)
    = Raise (mkExn FileNotFoundError in_open) /\
  kind (mkExn FileNotFoundError in_open) <> InvalidDimensions.
Proof. repeat split; vm_compute; done. Qed.

Lemma ResizeImage_nonpositive_dimensions_witness :
  (4 <= 0 \/ -1 <= 0) /\
  exists e,
    fst (ResizeImage (PIL := Toy.pil) "pic.png" "out/small.png" 4 (-1) Toy.world0) = Raise e /\
    files (snd (ResizeImage (PIL := Toy.pil) "pic.png" "out/small.png" 4 (-1) Toy.world0))
      = files Toy.world0 /\
    match decodable (PIL := Toy.pil) Toy.world0 "pic.png" with
    | Some _ =>
        kind e = InvalidDimensions /\
        exc e = if (fits_c_int 4 && fits_c_int (-1))%bool
                then ValueError else OverflowError
    | None => kind e = DecodeError
    end.
Proof.
  split; [right; lia|].
  apply (ResizeImage_nonpositive_dimensions (PIL := Toy.pil) Toy.world0
           "pic.png" "out/small.png" 4 (-1)).
  right; lia.
Defined.

Lemma ResizeImage_undecodable_input_witness :
  decodable (PIL := Toy.pil) Toy.world0 "notes.txt" = None /\
  exists e,
    fst (ResizeImage (PIL := Toy.pil) "notes.txt" "out/notes.png" 3 4 Toy.world0) = Raise e /\
    kind e = DecodeError /\
    files (snd (ResizeImage (PIL := Toy.pil) "notes.txt" "out/notes.png" 3 4 Toy.world0))
      = files Toy.world0.
Proof.
  split; [vm_compute; reflexivity|].
  apply (ResizeImage_undecodable_input (PIL := Toy.pil)).
  vm_compute; reflexivity.
Defined.






(** C9 as stated fails: the input is a multi-frame container whose file
    the library keeps open, the output directory does not exist; when
    [save] raises, the handle on the input is still open. The same holds
    when the pixel data of the input is cut short. *)
Lemma ResizeImage_leaves_input_handle_open :
  fds Toy.world0 = [] /\
  fst (ResizeImage (PIL := Toy.pil) "anim.gif" "nodir/small.png" 3 4 Toy.world0)
    = Raise (mkExn FileNotFoundError in_save) /\
  fds (snd (ResizeImage (PIL := Toy.pil) "anim.gif" "nodir/small.png" 3 4 Toy.world0))
    = [("anim.gif"%string, RB)] /\
  fst (ResizeImage (PIL := Toy.pil) "cut.png" "out/small.png" 3 4 Toy.world0)
    = Raise (mkExn OSError in_load) /\
  fds (snd (ResizeImage (PIL := Toy.pil) "cut.png" "out/small.png" 3 4 Toy.world0))
    = [("cut.png"%string, RB)].
Proof. repeat split; vm_compute; reflexivity. Qed.

Lemma ResizeImage_in_place_overwrite_witness :
  fst (ResizeImage (PIL := Toy.pil) "pic.png" "pic.png" 3 4 Toy.world0) = Ok tt /\
  exists f',
    files (snd (ResizeImage (PIL := Toy.pil) "pic.png" "pic.png" 3 4 Toy.world0))
      !! "pic.png"%string = Some f' /\
    f_data f' <> ["P"%byte; "0"%byte; x0c; x10].
Proof.
  assert (fst (ResizeImage (PIL := Toy.pil) "pic.png" "pic.png" 3 4 Toy.world0) = Ok tt)
    as Hok by (vm_compute; reflexivity).
  split; [exact Hok|].
  destruct (ResizeImage_in_place_overwrite (PIL := Toy.pil) Toy.world0 "pic.png" 3 4
              (Toy.file ["P"%byte; "0"%byte; x0c; x10])
              ltac:(vm_compute; reflexivity) Hok)
    as (b & fmt & f' & Hb & Hext & Hf' & _ & Hne).
  exists f'. split; [exact Hf'|].
  apply Hne.
  - apply toy_preserves_size. left.
    vm_compute in Hext. by injection Hext as <-.
  - vm_compute in Hb. injection Hb as <-. vm_compute. congruence.
Defined.

(** ** Further properties of [ResizeImage] *)

Section Outcomes.

Context {PIL : Imaging}.

Implicit Types (w : World) (filein fileout : string) (width height : Z).


(** X2. Whatever the outcome, a call creates, removes or changes no
    directory, and leaves every file other than the one the output path
    names as it was. *)
Theorem ResizeImage_frame w filein fileout width height :
  dirs (snd (ResizeImage filein fileout width height w)) = dirs w /\
  forall q, q <> realpath w fileout ->
    files (snd (ResizeImage filein fileout width height w)) !! q = files w !! q.
Proof.
  split.
  - unfold_script. run. branch; done.
  - intros q Hq. unfold_script. run.
    branch; try done;
      rewrite ?lookup_delete_ne, ?lookup_alter_ne, ?lookup_insert_ne by done; done.
Qed.



(** X5. When the output path is the input path and the encoder fails, the
    original is gone all the same: the call raises OSError from [save]
    and the file holds only what the encoder had written. *)
Theorem ResizeImage_in_place_failure_loses_input
    w filein width height b fmt written :
  decodable w filein = Some b ->
  0 < width -> 0 < height ->
  resizable b (width, height) = true ->
  EXTENSION (posixpath.ext_lower filein) = Some fmt ->
  writable_location w filein = true ->
  encode fmt (resample ANTIALIAS b (width, height)) = EncoderError written ->
  fst (ResizeImage filein filein width height w) = Raise (mkExn OSError in_save) /\
  exists f',
    files (snd (ResizeImage filein filein width height w)) !! realpath w filein
      = Some f' /\
    f_data f' = written.
Proof.
  intros (f & hd & Hf & Hr & Hid & Hld)%decodable_Some_inv Hw Hh
    (Hfw & Hfh & Hal)%resizable_inv Hext Hloc Henc.
  pose proof (size_check_pass width height Hw Hh) as Hchk.
  unfold writable_location in Hloc. rewrite Hf in Hloc.
  unfold_script. run.
  destruct (close_fp_after_loading hd); run;
    (split; [done|]); rewrite lookup_alter_eq, lookup_insert_eq; simpl;
    by eexists.
Qed.

(** X6. The output path is not looked at before the input has decoded and
    the size has been accepted: when the input does not decode, or width
    or height is not positive, the exception is the same whatever the
    output path, and no file has changed. *)
Theorem ResizeImage_output_path_not_examined
    w filein fileout1 fileout2 width height :
  decodable w filein = None \/ width <= 0 \/ height <= 0 ->
  fst (ResizeImage filein fileout1 width height w)
    = fst (ResizeImage filein fileout2 width height w) /\
  (exists e, fst (ResizeImage filein fileout1 width height w) = Raise e /\
             site e <> in_save) /\
  files (snd (ResizeImage filein fileout1 width height w)) = files w.
Proof.
  intros [Hd | Hdim].
  - unfold decodable, decode_bytes in Hd. unfold_script. simpl.
    split_cases; repeat split; try done; eexists; split; done.
  - apply size_check_fail in Hdim as Hchk.
    unfold_script. run.
    branch; repeat split; try done; eexists; split; done.
Qed.


End Outcomes.

(** ** The further properties on the small instance *)



Lemma ResizeImage_in_place_failure_loses_input_witness :
  decodable (PIL := Toy.pil) Toy.world0 "pic.png" = Some (Toy.mkBitmap 12 16 false) /\
  encode (Imaging := Toy.pil) Toy.TPNG
    (resample (Imaging := Toy.pil) ANTIALIAS (Toy.mkBitmap 12 16 false) (300, 4))
    = EncoderError ["P"%byte] /\
  fst (ResizeImage (PIL := Toy.pil) "pic.png" "pic.png" 300 4 Toy.world0)
    = Raise (mkExn OSError in_save) /\
  exists f',
    files (snd (ResizeImage (PIL := Toy.pil) "pic.png" "pic.png" 300 4 Toy.world0))
      !! "pic.png"%string = Some f' /\
    f_data f' = ["P"%byte].
Proof.
  assert (decodable (PIL := Toy.pil) Toy.world0 "pic.png"
          = Some (Toy.mkBitmap 12 16 false)) as Hd by (vm_compute; reflexivity).
  assert (encode (Imaging := Toy.pil) Toy.TPNG
            (resample (Imaging := Toy.pil) ANTIALIAS (Toy.mkBitmap 12 16 false) (300, 4))
          = EncoderError ["P"%byte]) as He by (vm_compute; reflexivity).
  split; [exact Hd|split; [exact He|]].
  apply (ResizeImage_in_place_failure_loses_input (PIL := Toy.pil) Toy.world0
           "pic.png" 300 4 (Toy.mkBitmap 12 16 false) Toy.TPNG ["P"%byte] Hd);
    [reflexivity | reflexivity | vm_compute; reflexivity | vm_compute; reflexivity
    | vm_compute; reflexivity | exact He].
Defined.

Lemma ResizeImage_output_path_not_examined_witness :
  decodable (PIL := Toy.pil) Toy.world0 "notes.txt" = None /\
  fst (ResizeImage (PIL := Toy.pil) "notes.txt" "out/a.png" 3 4 Toy.world0)
    = fst (ResizeImage (PIL := Toy.pil) "notes.txt" "nodir/b.xyz" 3 4 Toy.world0) /\
  (exists e,
     fst (ResizeImage (PIL := Toy.pil) "notes.txt" "out/a.png" 3 4 Toy.world0) = Raise e /\
     site e <> in_save) /\
  files (snd (ResizeImage (PIL := Toy.pil) "notes.txt" "out/a.png" 3 4 Toy.world0))
    = files Toy.world0.
Proof.
  assert (decodable (PIL := Toy.pil) Toy.world0 "notes.txt" = None)
    as Hd by (vm_compute; reflexivity).
  split; [exact Hd|].
  exact (ResizeImage_output_path_not_examined (PIL := Toy.pil) Toy.world0
           "notes.txt" "out/a.png" "nodir/b.xyz" 3 4 (or_introl Hd)).
Defined.

